(** * OpenFDA MCP server: the REST client and the tool dispatcher

    A shallow embedding of

    - [build/utils/api-client.js] (class [FDAAPIClient]: [get],
      [buildSearchParams], [handleAPIError], the [search*] methods), and
    - the server module holding [FDAServer.setupToolHandlers] (the
      [ListTools] catalogue and the [CallTool] dispatcher),

    followed by the properties of the gateway specification that concern
    them. JavaScript objects are finite maps from property names to values,
    numbers are IEEE 754 binary64 values, and asynchronous code that talks
    to the outside is written in a small trace-and-exception monad. *)

From Stdlib Require Import ZArith Bool List.
From Stdlib Require Import Floats.SpecFloat.
From stdpp Require Import gmap strings list fin_maps pretty.

Local Open Scope string_scope.
Local Open Scope list_scope.
Local Open Scope Z_scope.

(** ** JavaScript values *)

Module JS.

(** A JavaScript number: a binary64 float. [S754_nan] is NaN, the two
    [S754_zero]s are +0 and -0. *)
Abbreviation number := spec_float.

Definition prec : Z := 53.
Definition emax : Z := 1024.

(** The number denoted by an integer literal of the source. *)
Definition number_of_Z (z : Z) : number := binary_normalize prec emax z 0 false.

Definition NaN : number := S754_nan.
Definition Infinity : number := S754_infinity false.

(** The scalar values a tool argument or a query parameter can hold. *)
Inductive value : Type :=
| VUndefined
| VNull
| VBool (b : bool)
| VNum (x : number)
| VStr (s : string).

(** An object used as a dictionary: own properties only. A key may be
    present and hold [VUndefined]. *)
Abbreviation object := (gmap string value).

(** Property read [o[k]]: a missing property reads as [undefined]. *)
Definition prop (o : object) (k : string) : value :=
  match o !! k with
  | Some v => v
  | None => VUndefined
  end.

(** [Object.keys(o)] *)
Definition Object_keys (o : object) : list string := map fst (map_to_list o).

Definition is_nan (x : number) : bool :=
  match x with S754_nan => true | _ => false end.

Definition is_zero (x : number) : bool :=
  match x with S754_zero _ => true | _ => false end.

(** ToBoolean: the truthiness test of [if (v)] and of [v || w]. *)
Definition ToBoolean (v : value) : bool :=
  match v with
  | VUndefined | VNull => false
  | VBool b => b
  | VNum x => negb (is_zero x || is_nan x)
  | VStr s => negb (String.eqb s "")
  end.

(** [v === undefined || v === null] *)
Definition is_nullish (v : value) : bool :=
  match v with
  | VUndefined | VNull => true
  | _ => false
  end.

(** ToNumber. The numeric reading of a string (StringToNumber) is taken as
    a parameter: what is proved below holds whatever it is. *)
Definition ToNumber (StringToNumber : string → number) (v : value) : number :=
  match v with
  | VUndefined => NaN
  | VNull => S754_zero false
  | VBool b => if b then number_of_Z 1 else S754_zero false
  | VNum x => x
  | VStr s => StringToNumber s
  end.

(** One round of the loop of [Math.min]: a NaN wins, then -0 is below +0,
    then the smaller number is kept. *)
Definition min_step (lowest n : number) : number :=
  if is_nan lowest || is_nan n then NaN
  else
    match n, lowest with
    | S754_zero true, S754_zero false => n
    | _, _ => if SFltb n lowest then n else lowest
    end.

(** [Math.min(...args)] on numbers: starts from +Infinity. *)
Definition Math_min (args : list number) : number :=
  fold_left min_step args Infinity.

(** [o1 || o2] on strings read from the environment (absent is
    [undefined]): the first operand when it is truthy. *)
Definition or_else (o : option string) (d : string) : string :=
  match o with
  | Some s => if String.eqb s "" then d else s
  | None => d
  end.

End JS.

Import JS.

(** ** Effects: requests on the wire, exceptions *)

Module Effect.

(** The body of an openFDA answer, as far as the client looks into it:
    [data.error.message] when the answer is an error document, and the
    result records (each kept as its JSON text). *)
Record response_data : Type := {
  error_message : option string;
  results : list string
}.

Record http_response : Type := {
  status : Z;
  data : response_data
}.

(** An [Error] object. [new Error(m)] has a message only; the errors the
    HTTP library rejects with also carry [response] (an answer arrived,
    with a status outside 2xx) or [request] (sent, nothing came back). *)
Record error_object : Type := {
  message : string;
  response : option http_response;
  request : bool
}.

Definition new_Error (m : string) : error_object :=
  {| message := m; response := None; request := false |}.

(** The two JSON-RPC codes of the protocol SDK that the server uses. *)
Inductive ErrorCode : Type :=
| MethodNotFound
| InternalError.

(** What a [throw] can carry. [McpError] is the error envelope of the
    protocol; it is a subclass of [Error], told apart by [instanceof]. *)
Inductive thrown : Type :=
| McpError (code : ErrorCode) (msg : string)
| Error (e : error_object)
| NonError (v : value).

(** How the HTTP library settles a request: the promise is fulfilled with
    the response or rejected with an error. *)
Inductive settled : Type :=
| Fulfilled (r : http_response)
| Rejected (e : error_object).

(** What a caller finds when it looks for the upstream status on a thrown
    value, [error.response?.status]. *)
Definition upstream_status (e : thrown) : option Z :=
  match e with
  | Error err => status <$> response err
  | _ => None
  end.

(** The observable effect of the client: a GET on the wire. *)
Inductive event : Type :=
| HttpGet (endpoint : string) (params : object).

Inductive completion (A : Type) : Type :=
| Normal (a : A)
| Throw (e : thrown).
Arguments Normal {A} a.
Arguments Throw {A} e.

(** Whether a completion is a normal one. *)
Definition succeeded {A} (c : completion A) : bool :=
  match c with
  | Normal _ => true
  | Throw _ => false
  end.

(** A computation reads the requests issued so far, may issue more, and
    completes normally or abruptly. *)
Definition M (A : Type) : Type := list event → completion A * list event.

Definition ret {A} (a : A) : M A := λ t, (Normal a, t).

Definition throw {A} (e : thrown) : M A := λ t, (Throw e, t).

Definition bind {A B} (c : M A) (k : A → M B) : M B :=
  λ t, match c t with
       | (Normal a, t') => k a t'
       | (Throw e, t') => (Throw e, t')
       end.

(** [try { c } catch (error) { h error }] *)
Definition try_catch {A} (c : M A) (h : thrown → M A) : M A :=
  λ t, match c t with
       | (Normal a, t') => (Normal a, t')
       | (Throw e, t') => h e t'
       end.

(** The upstream service seen through the HTTP library: given the requests
    made so far and one more request, how that request settles. *)
Definition network : Type := list event → string → object → settled.

(** Issue one GET and wait for it to settle. *)
Definition http_get (net : network) (endpoint : string) (params : object)
  : M settled :=
  λ t, (Normal (net t endpoint params), t ++ [HttpGet endpoint params]).

End Effect.

Import Effect.

(** The computations form a monad in the sense of stdpp, which gives the
    [x ← c; k] notation. *)
#[export] Instance M_ret : MRet M := @ret.
#[export] Instance M_bind : MBind M := λ A B k c, bind c k.

(** ** build/utils/api-client.js *)

Module ApiClient.

Definition FDA_API_BASE_URL : string := "https://api.fda.gov".
Definition DEFAULT_LIMIT : number := number_of_Z 10.
Definition MAX_LIMIT : number := number_of_Z 100.

Definition REQUESTS_PER_MINUTE : Z := 240.
Definition REQUESTS_PER_HOUR : Z := 120000.
Definition REQUESTS_PER_MINUTE_NO_KEY : Z := 40.
Definition REQUESTS_PER_HOUR_NO_KEY : Z := 1000.

(** The process the module is loaded in: its environment, and the
    StringToNumber of the language. *)
Record process : Type := {
  env : gmap string string;
  StringToNumber : string → number
}.

(** [process.env.FDA_API_KEY || '...'] *)
Definition FDA_API_KEY (p : process) : string :=
  or_else (env p !! "FDA_API_KEY") "sNQRRzbOvngzuFVbiajF6AelXY7QncaX3OKN8YQD".

(** The fields of the class. *)
Record FDAAPIClient : Type := {
  axiosInstance : network;
  hasAPIKey : bool
}.

(** The constructor: [hasAPIKey = !!FDA_API_KEY]; [axios.create] yields
    the instance the requests go through. *)
Definition new_FDAAPIClient (p : process) (net : network) : FDAAPIClient :=
  {| axiosInstance := net;
     hasAPIKey := ToBoolean (VStr (FDA_API_KEY p)) |}.

(** [handleAPIError]: every path throws a fresh [Error]. *)
Definition handleAPIError {A} (this : FDAAPIClient) (error : error_object) : M A :=
  match response error with
  | Some resp =>
      let status := status resp in
      let data := data resp in
      if status =? 400 then
        throw (Error (new_Error ("Bad Request: " +:+
          or_else (error_message data) "Invalid search parameters")))
      else if status =? 404 then
        throw (Error (new_Error "No results found for the given search criteria"))
      else if status =? 429 then
        throw (Error (new_Error ("Rate limit exceeded. " +:+
          (if hasAPIKey this then "API key rate limits"
           else "Consider using an API key for higher limits"))))
      else if status =? 500 then
        throw (Error (new_Error "FDA API server error. Please try again later"))
      else if status =? 503 then
        throw (Error (new_Error "FDA API service temporarily unavailable"))
      else
        throw (Error (new_Error ("FDA API error (" +:+ pretty status +:+ "): " +:+
          or_else (error_message data) (message error))))
  | None =>
      if request error then
        throw (Error (new_Error "Network error: Unable to connect to FDA API"))
      else
        throw (Error (new_Error ("Request error: " +:+ message error)))
  end.

(** [this.axiosInstance.get(endpoint, { params })] with the response
    interceptor installed by the constructor: a fulfilled response passes
    through, a rejection goes to [handleAPIError]. *)
Definition axiosInstance_get (this : FDAAPIClient) (endpoint : string)
    (params : object) : M http_response :=
  s ← http_get (axiosInstance this) endpoint params;
  match s with
  | Fulfilled response => ret response
  | Rejected error => handleAPIError this error
  end.

(** "Add API key if available" *)
Definition add_api_key (p : process) (this : FDAAPIClient)
    (requestParams : object) : object :=
  if hasAPIKey this then <["api_key" := VStr (FDA_API_KEY p)]> requestParams
  else requestParams.

(** "Ensure limit is within bounds" *)
Definition ensure_limit (p : process) (requestParams : object) : object :=
  if ToBoolean (prop requestParams "limit") then
    <["limit" := VNum (Math_min
        [ToNumber (StringToNumber p) (prop requestParams "limit"); MAX_LIMIT])]>
      requestParams
  else
    <["limit" := VNum DEFAULT_LIMIT]> requestParams.

(** "Remove undefined parameters": one round of the [forEach], deleting the
    key when its value is [undefined] or [null]. *)
Definition sweep (o : object) (key : string) : object :=
  if is_nullish (prop o key) then delete key o else o.

(** [Object.keys(requestParams).forEach(...)] *)
Definition remove_undefined (requestParams : object) : object :=
  fold_left sweep (Object_keys requestParams) requestParams.

(** The query parameters [get] hands to the HTTP library. *)
Definition request_params (p : process) (this : FDAAPIClient)
    (params : object) : object :=
  let requestParams := params in
  let requestParams := add_api_key p this requestParams in
  let requestParams := ensure_limit p requestParams in
  remove_undefined requestParams.

(** [get(endpoint, params)] *)
Definition get (p : process) (this : FDAAPIClient) (endpoint : string)
    (params : object) : M response_data :=
  let requestParams := request_params p this params in
  try_catch
    (response ← axiosInstance_get this endpoint requestParams;
     ret (data response))
    (λ error, throw error).

(** [buildSearchParams(searchParams)] *)
Definition buildSearchParams (p : process) (searchParams : object) : object :=
  let params : object := ∅ in
  let params :=
    if ToBoolean (prop searchParams "search")
    then <["search" := prop searchParams "search"]> params else params in
  let params :=
    if ToBoolean (prop searchParams "count")
    then <["count" := prop searchParams "count"]> params else params in
  let params :=
    if ToBoolean (prop searchParams "limit")
    then <["limit" := VNum (Math_min
           [ToNumber (StringToNumber p) (prop searchParams "limit"); MAX_LIMIT])]>
           params
    else params in
  let params :=
    if ToBoolean (prop searchParams "skip")
    then <["skip" := prop searchParams "skip"]> params else params in
  params.

(** The twelve search methods share one shape:
    [this.get(path, this.buildSearchParams(searchParams))]. *)
Definition search (path : string) (p : process) (this : FDAAPIClient)
    (searchParams : object) : M response_data :=
  let params := buildSearchParams p searchParams in
  get p this path params.

Definition searchDrugAdverseEvents := search "/drug/event.json".
Definition searchDrugLabels := search "/drug/label.json".
Definition searchDrugNDC := search "/drug/ndc.json".
Definition searchDrugRecalls := search "/drug/enforcement.json".
Definition searchDrugsFDA := search "/drug/drugsfda.json".
Definition searchDrugShortages := search "/drug/drugshortages.json".
Definition searchDevice510K := search "/device/510k.json".
Definition searchDeviceClassifications := search "/device/classification.json".
Definition searchDeviceAdverseEvents := search "/device/event.json".
Definition searchDeviceRecalls := search "/device/enforcement.json".
Definition searchFoodAdverseEvents := search "/food/event.json".
Definition searchFoodRecalls := search "/food/enforcement.json".

(** [getUsageInfo()] *)
Record usage_info : Type := {
  usage_hasAPIKey : bool;
  requestsPerMinute : Z;
  requestsPerHour : Z;
  recommendations : string
}.

Definition getUsageInfo (this : FDAAPIClient) : usage_info :=
  {| usage_hasAPIKey := hasAPIKey this;
     requestsPerMinute :=
       if hasAPIKey this then REQUESTS_PER_MINUTE else REQUESTS_PER_MINUTE_NO_KEY;
     requestsPerHour :=
       if hasAPIKey this then REQUESTS_PER_HOUR else REQUESTS_PER_HOUR_NO_KEY;
     recommendations :=
       if hasAPIKey this
       then "API key configured - higher rate limits available"
       else "Consider setting FDA_API_KEY environment variable for higher rate limits" |}.

(** The singleton exported by the module. *)
Definition fdaAPIClient (p : process) (net : network) : FDAAPIClient :=
  new_FDAAPIClient p net.

End ApiClient.

Import ApiClient.

(** ** The server: tool catalogue and dispatcher *)

Module FdaServer.

(** *** The catalogue answered to [ListTools] *)

Inductive schema_type : Type := TString | TNumber | TBoolean.

(** One property of an input schema: its type, the [enum] of allowed
    strings (empty when there is none), [minimum] and [maximum]. *)
Inductive property_schema : Type :=
| Schema (type : schema_type) (enum : list string)
         (minimum maximum : option Z).

Definition minimum (s : property_schema) : option Z :=
  match s with Schema _ _ lo _ => lo end.

Definition maximum (s : property_schema) : option Z :=
  match s with Schema _ _ _ hi => hi end.

Record tool : Type := {
  name : string;
  description : string;
  properties : list (string * property_schema)
}.

Definition search_drug_adverse_events_tool : tool := {|
  name := "search_drug_adverse_events";
  description := "Search FDA drug adverse event reports (FAERS)";
  properties := [
    ("drug_name", Schema TString [] None None);
    ("brand_name", Schema TString [] None None);
    ("generic_name", Schema TString [] None None);
    ("manufacturer", Schema TString [] None None);
    ("reaction", Schema TString [] None None);
    ("serious_only", Schema TBoolean [] None None);
    ("patient_sex", Schema TString ["1"; "2"] None None);
    ("country", Schema TString [] None None);
    ("date_from", Schema TString [] None None);
    ("date_to", Schema TString [] None None);
    ("count", Schema TString [] None None);
    ("limit", Schema TNumber [] (Some 1) (Some 100));
    ("skip", Schema TNumber [] (Some 0) None)
  ] |}.

Definition search_drug_labels_tool : tool := {|
  name := "search_drug_labels";
  description := "Search FDA drug product labeling information";
  properties := [
    ("brand_name", Schema TString [] None None);
    ("generic_name", Schema TString [] None None);
    ("manufacturer", Schema TString [] None None);
    ("active_ingredient", Schema TString [] None None);
    ("indication", Schema TString [] None None);
    ("route", Schema TString [] None None);
    ("product_type", Schema TString [] None None);
    ("count", Schema TString [] None None);
    ("limit", Schema TNumber [] (Some 1) (Some 100));
    ("skip", Schema TNumber [] (Some 0) None)
  ] |}.

Definition search_drug_ndc_tool : tool := {|
  name := "search_drug_ndc";
  description := "Search National Drug Code (NDC) directory";
  properties := [
    ("product_ndc", Schema TString [] None None);
    ("package_ndc", Schema TString [] None None);
    ("proprietary_name", Schema TString [] None None);
    ("nonproprietary_name", Schema TString [] None None);
    ("labeler_name", Schema TString [] None None);
    ("dosage_form", Schema TString [] None None);
    ("route", Schema TString [] None None);
    ("substance_name", Schema TString [] None None);
    ("count", Schema TString [] None None);
    ("limit", Schema TNumber [] (Some 1) (Some 100));
    ("skip", Schema TNumber [] (Some 0) None)
  ] |}.

Definition search_drug_recalls_tool : tool := {|
  name := "search_drug_recalls";
  description := "Search drug recall enforcement reports";
  properties := [
    ("product_description", Schema TString [] None None);
    ("recalling_firm", Schema TString [] None None);
    ("classification", Schema TString ["Class I"; "Class II"; "Class III"] None None);
    ("status", Schema TString ["Ongoing"; "Completed"; "Pending"; "Terminated"] None None);
    ("state", Schema TString [] None None);
    ("country", Schema TString [] None None);
    ("reason_for_recall", Schema TString [] None None);
    ("date_from", Schema TString [] None None);
    ("date_to", Schema TString [] None None);
    ("count", Schema TString [] None None);
    ("limit", Schema TNumber [] (Some 1) (Some 100));
    ("skip", Schema TNumber [] (Some 0) None)
  ] |}.

Definition search_drugs_fda_tool : tool := {|
  name := "search_drugs_fda";
  description := "Search Drugs@FDA database for approved drug products";
  properties := [
    ("sponsor_name", Schema TString [] None None);
    ("application_number", Schema TString [] None None);
    ("brand_name", Schema TString [] None None);
    ("generic_name", Schema TString [] None None);
    ("active_ingredient", Schema TString [] None None);
    ("dosage_form", Schema TString [] None None);
    ("marketing_status", Schema TString ["Prescription"; "Over-the-counter"; "Discontinued"; "None"] None None);
    ("count", Schema TString [] None None);
    ("limit", Schema TNumber [] (Some 1) (Some 100));
    ("skip", Schema TNumber [] (Some 0) None)
  ] |}.

Definition search_drug_shortages_tool : tool := {|
  name := "search_drug_shortages";
  description := "Search current drug shortages reported to FDA";
  properties := [
    ("product_name", Schema TString [] None None);
    ("generic_name", Schema TString [] None None);
    ("brand_name", Schema TString [] None None);
    ("active_ingredient", Schema TString [] None None);
    ("shortage_status", Schema TString ["Currently in Shortage"; "Resolved"; "Discontinued"; "Available"] None None);
    ("shortage_designation", Schema TString ["Yes"; "No"] None None);
    ("dosage_form", Schema TString [] None None);
    ("count", Schema TString [] None None);
    ("limit", Schema TNumber [] (Some 1) (Some 100));
    ("skip", Schema TNumber [] (Some 0) None)
  ] |}.

Definition search_device_510k_tool : tool := {|
  name := "search_device_510k";
  description := "Search FDA 510(k) device clearances";
  properties := [
    ("device_name", Schema TString [] None None);
    ("applicant", Schema TString [] None None);
    ("contact", Schema TString [] None None);
    ("product_code", Schema TString [] None None);
    ("clearance_type", Schema TString [] None None);
    ("decision_date_from", Schema TString [] None None);
    ("decision_date_to", Schema TString [] None None);
    ("limit", Schema TNumber [] (Some 1) (Some 100));
    ("skip", Schema TNumber [] (Some 0) None)
  ] |}.

Definition search_device_classifications_tool : tool := {|
  name := "search_device_classifications";
  description := "Search FDA device classifications";
  properties := [
    ("device_name", Schema TString [] None None);
    ("device_class", Schema TString ["1"; "2"; "3"] None None);
    ("medical_specialty", Schema TString [] None None);
    ("product_code", Schema TString [] None None);
    ("regulation_number", Schema TString [] None None);
    ("limit", Schema TNumber [] (Some 1) (Some 100));
    ("skip", Schema TNumber [] (Some 0) None)
  ] |}.

Definition search_device_adverse_events_tool : tool := {|
  name := "search_device_adverse_events";
  description := "Search FDA device adverse events (MDR)";
  properties := [
    ("device_name", Schema TString [] None None);
    ("brand_name", Schema TString [] None None);
    ("manufacturer", Schema TString [] None None);
    ("product_code", Schema TString [] None None);
    ("event_type", Schema TString [] None None);
    ("patient_sex", Schema TString ["F"; "M"] None None);
    ("date_from", Schema TString [] None None);
    ("date_to", Schema TString [] None None);
    ("limit", Schema TNumber [] (Some 1) (Some 100));
    ("skip", Schema TNumber [] (Some 0) None)
  ] |}.

Definition search_device_recalls_tool : tool := {|
  name := "search_device_recalls";
  description := "Search FDA device recall enforcement reports";
  properties := [
    ("product_description", Schema TString [] None None);
    ("recalling_firm", Schema TString [] None None);
    ("classification", Schema TString ["Class I"; "Class II"; "Class III"] None None);
    ("status", Schema TString ["Ongoing"; "Completed"; "Pending"; "Terminated"] None None);
    ("product_code", Schema TString [] None None);
    ("date_from", Schema TString [] None None);
    ("date_to", Schema TString [] None None);
    ("limit", Schema TNumber [] (Some 1) (Some 100));
    ("skip", Schema TNumber [] (Some 0) None)
  ] |}.

Definition tools : list tool := [
  search_drug_adverse_events_tool;
  search_drug_labels_tool;
  search_drug_ndc_tool;
  search_drug_recalls_tool;
  search_drugs_fda_tool;
  search_drug_shortages_tool;
  search_device_510k_tool;
  search_device_classifications_tool;
  search_device_adverse_events_tool;
  search_device_recalls_tool
].

(** The schema a tool declares for one of its parameters. *)
Definition declared (t : tool) (parameter : string) : option property_schema :=
  snd <$> find (λ kv, String.eqb (fst kv) parameter) (properties t).

(** *** The [CallTool] request handler *)

(** What a tool handler returns to the protocol layer. *)
Record CallToolResult : Type := {
  content : list string;
  isError : bool
}.

(** A tool handler takes [request.params.arguments], which may be
    missing. *)
Definition handler : Type := option object → M CallToolResult.

(** The handlers imported from [./handlers/drug-handlers.js] and
    [./handlers/device-handlers.js]. *)
Record Handlers : Type := {
  handleSearchDrugAdverseEvents : handler;
  handleSearchDrugLabels : handler;
  handleSearchDrugNDC : handler;
  handleSearchDrugRecalls : handler;
  handleSearchDrugsFDA : handler;
  handleSearchDrugShortages : handler;
  handleSearchDevice510K : handler;
  handleSearchDeviceClassifications : handler;
  handleSearchDeviceAdverseEvents : handler;
  handleSearchDeviceRecalls : handler
}.

(** [request.params] of a [CallTool] request. *)
Record CallToolRequest : Type := {
  params_name : string;
  params_arguments : option object
}.

(** The [switch] on the tool name. *)
Definition route (h : Handlers) (request : CallToolRequest) : M CallToolResult :=
  let name := params_name request in
  let arguments := params_arguments request in
  if (name =? "search_drug_adverse_events")%string then
    handleSearchDrugAdverseEvents h arguments
  else if (name =? "search_drug_labels")%string then
    handleSearchDrugLabels h arguments
  else if (name =? "search_drug_ndc")%string then
    handleSearchDrugNDC h arguments
  else if (name =? "search_drug_recalls")%string then
    handleSearchDrugRecalls h arguments
  else if (name =? "search_drugs_fda")%string then
    handleSearchDrugsFDA h arguments
  else if (name =? "search_drug_shortages")%string then
    handleSearchDrugShortages h arguments
  else if (name =? "search_device_510k")%string then
    handleSearchDevice510K h arguments
  else if (name =? "search_device_classifications")%string then
    handleSearchDeviceClassifications h arguments
  else if (name =? "search_device_adverse_events")%string then
    handleSearchDeviceAdverseEvents h arguments
  else if (name =? "search_device_recalls")%string then
    handleSearchDeviceRecalls h arguments
  else
    throw (McpError MethodNotFound ("Unknown tool: " +:+ name)).

(** The [catch] clause: an [McpError] is thrown again as it is, anything
    else is wrapped into an [McpError] with code [InternalError]. *)
Definition rethrow (error : thrown) : M CallToolResult :=
  match error with
  | McpError _ _ => throw error
  | _ =>
      let errorMessage :=
        match error with
        | Error e => message e
        | _ => "Unknown error occurred"
        end in
      throw (McpError InternalError errorMessage)
  end.

(** The handler registered for [CallToolRequestSchema]. *)
Definition callTool (h : Handlers) (request : CallToolRequest) : M CallToolResult :=
  try_catch (route h request) rethrow.

End FdaServer.

Import FdaServer.

(** ** Reading the parameters on the wire *)

(** A property survives the clean-up when it holds a value. *)
Definition present (ov : option value) : option value :=
  match ov with
  | Some v => if is_nullish v then None else Some v
  | None => None
  end.

(** The limit that leaves the client, from the limit that came in. *)
Definition limit_sent (p : process) (limit : value) : number :=
  if ToBoolean limit
  then Math_min [ToNumber (StringToNumber p) limit; MAX_LIMIT]
  else DEFAULT_LIMIT.

(** ** Worked inputs *)

Module Scenario.

(** A process started without [FDA_API_KEY]. The inputs below hold no
    string where a number is read, so the numeric reading of strings is
    left at NaN. *)
Definition bare : process := {| env := ∅; StringToNumber := λ _, NaN |}.

(** An upstream that settles every request the same way. *)
Definition answers (s : settled) : network := λ _ _ _, s.

Definition no_matches : http_response :=
  {| status := 404;
     data := {| error_message := Some "No matches found!"; results := [] |} |}.

Definition too_many : http_response :=
  {| status := 429;
     data := {| error_message := Some "Rate limit exceeded"; results := [] |} |}.

Definition empty_page : http_response :=
  {| status := 200; data := {| error_message := None; results := [] |} |}.

(** The rejection of the HTTP library for an answer outside 2xx. *)
Definition failed_with (r : http_response) : error_object :=
  {| message := "Request failed with status code " +:+ pretty (status r);
     response := Some r;
     request := true |}.

Definition ok : CallToolResult := {| content := ["{}"]; isError := false |}.

(** Handlers of which the one for drug labels fails with [thrown], and the
    others answer. *)
Definition labels_fail (e : thrown) : Handlers :=
  {| handleSearchDrugAdverseEvents := λ _, ret ok;
     handleSearchDrugLabels := λ _, throw e;
     handleSearchDrugNDC := λ _, ret ok;
     handleSearchDrugRecalls := λ _, ret ok;
     handleSearchDrugsFDA := λ _, ret ok;
     handleSearchDrugShortages := λ _, ret ok;
     handleSearchDevice510K := λ _, ret ok;
     handleSearchDeviceClassifications := λ _, ret ok;
     handleSearchDeviceAdverseEvents := λ _, ret ok;
     handleSearchDeviceRecalls := λ _, ret ok |}.

Definition call (name : string) (arguments : option object) : CallToolRequest :=
  {| params_name := name; params_arguments := arguments |}.

End Scenario.

(** ** The search methods of the client, by endpoint *)

(** The twelve public search methods, each with the path it queries. *)
Definition search_methods :
    list (string * (process → FDAAPIClient → object → M response_data)) :=
  [ ("/drug/event.json", searchDrugAdverseEvents);
    ("/drug/label.json", searchDrugLabels);
    ("/drug/ndc.json", searchDrugNDC);
    ("/drug/enforcement.json", searchDrugRecalls);
    ("/drug/drugsfda.json", searchDrugsFDA);
    ("/drug/drugshortages.json", searchDrugShortages);
    ("/device/510k.json", searchDevice510K);
    ("/device/classification.json", searchDeviceClassifications);
    ("/device/event.json", searchDeviceAdverseEvents);
    ("/device/enforcement.json", searchDeviceRecalls);
    ("/food/event.json", searchFoodAdverseEvents);
    ("/food/enforcement.json", searchFoodRecalls) ].

(** ** The shape of a catalogue entry *)

(** What the catalogue keeps to, checked on one tool. *)
Definition well_formed (t : tool) : Prop :=
  NoDup (fst <$> properties t)
  ∧ declared t "limit" = Some (Schema TNumber [] (Some 1) (Some 100))
  ∧ declared t "skip" = Some (Schema TNumber [] (Some 0) None)
  ∧ Forall (λ kv,
      match kv.2 with
      | Schema TString enum None None => NoDup enum
      | Schema TBoolean [] None None => True
      | Schema TNumber [] (Some lo) None => 0 ≤ lo
      | Schema TNumber [] (Some lo) (Some hi) => lo ≤ hi
      | _ => False
      end) (properties t).

(** ** src/sse.ts: sessions over server-sent events *)

Module SseServer.

(** The transport of one connection, as far as the router reads it: the
    session id the SDK drew for it, the path it tells the client to post to,
    and the response stream it writes on (named by a number). *)
Record SSEServerTransport : Type := {
  sessionId : string;
  endpoint : string;
  res : nat
}.

(** [new SSEServerTransport(endpoint, res)]; the session id is drawn by the
    constructor and is an input here. *)
Definition new_SSEServerTransport (endpoint : string) (res : nat) (uuid : string)
  : SSEServerTransport :=
  {| sessionId := uuid; endpoint := endpoint; res := res |}.

(** [const sessions = new Map<string, SSEServerTransport>()] *)
Abbreviation sessions := (gmap string SSEServerTransport).

(** [GET /sse]: a transport and a server are made and connected, and the
    transport is filed under its session id. When [server.connect] rejects,
    the handler stops before [sessions.set]. *)
Definition get_sse (res : nat) (uuid : string) (connected : bool)
    (m : sessions) : sessions :=
  let transport := new_SSEServerTransport "/messages" res uuid in
  if connected then <[sessionId transport := transport]> m else m.

(** [transport.onclose]: the entry under the id of the closed transport is
    deleted. *)
Definition onclose (transport : SSEServerTransport) (m : sessions) : sessions :=
  delete (sessionId transport) m.

(** [req.query.sessionId]: missing, a string, or what the query parser
    makes of a repeated or nested parameter (an array or an object). *)
Inductive query_value : Type :=
| QAbsent
| QString (s : string)
| QOther.

(** [!sessionId] is false for a non-empty string, an array or an object. *)
Definition truthy (q : query_value) : bool :=
  match q with
  | QAbsent => false
  | QString s => negb (String.eqb s "")
  | QOther => true
  end.

(** [sessions.get(sessionId)]: only a string can be a key of the map. *)
Definition Map_get (m : sessions) (q : query_value) : option SSEServerTransport :=
  match q with
  | QString s => m !! s
  | _ => None
  end.

(** What the router does with a [POST /messages]: it answers itself, or
    hands the request to a transport. *)
Inductive post_outcome : Type :=
| Send (status : Z) (body : string)
| HandlePostMessage (transport : SSEServerTransport).

(** [POST /messages] *)
Definition post_messages (q : query_value) (m : sessions) : post_outcome :=
  let sessionId := q in
  if negb (truthy sessionId) then
    Send 400 "Missing sessionId parameter"
  else
    match Map_get m sessionId with
    | None => Send 404 "Session not found"
    | Some transport => HandlePostMessage transport
    end.

(** The registries the process can be in: it starts empty, and changes when
    a client connects and when a transport closes. *)
Inductive reachable : sessions → Prop :=
| reachable_start : reachable ∅
| reachable_get_sse res uuid connected m :
    reachable m → reachable (get_sse res uuid connected m)
| reachable_onclose transport m :
    reachable m → reachable (onclose transport m).

End SseServer.

(** * Properties *)

(** ** Numbers *)

Section Numbers.

Lemma MAX_LIMIT_bits : MAX_LIMIT = S754_finite false 7036874417766400 (-46).
Proof. vm_compute. reflexivity. Qed.

Lemma DEFAULT_LIMIT_bits : DEFAULT_LIMIT = S754_finite false 5629499534213120 (-49).
Proof. vm_compute. reflexivity. Qed.

(** The first round of [Math.min] keeps its argument. *)
Lemma min_step_Infinity (x : number) : min_step Infinity x = x.
Proof. destruct x as [[]|[]| |[] m e]; reflexivity. Qed.

(** [Math.min(x, c)] is [x] unless [x] is NaN or [c < x]. *)
Lemma Math_min_pair (x c : number) :
  is_nan c = false →
  is_zero c = false →
  Math_min [x; c] =
    if is_nan x then NaN else if SFltb c x then c else x.
Proof.
  intros Hn Hz. unfold Math_min. simpl. rewrite min_step_Infinity.
  unfold min_step. rewrite Hn.
  destruct x as [[]|[]| |[] m e]; simpl; try reflexivity;
    destruct c as [[]|[]| |[] m' e']; simpl in *; try discriminate; reflexivity.
Qed.

(** Swapping the operands of a comparison reverses its outcome. *)
Lemma SFcompare_antisym (x y : number) :
  SFcompare y x = option_map CompOpp (SFcompare x y).
Proof.
  destruct x as [[]|[]| |[] m e], y as [[]|[]| |[] m' e']; simpl; try reflexivity.
  - rewrite (Z.compare_antisym e' e).
    destruct (e' ?= e)%Z; simpl; try reflexivity.
    rewrite (Pos.compare_cont_antisym m m' Eq). simpl.
    destruct (Pos.compare_cont Eq m m'); reflexivity.
  - rewrite (Z.compare_antisym e' e).
    destruct (e' ?= e)%Z; simpl; try reflexivity.
    rewrite (Pos.compare_cont_antisym m m' Eq). simpl.
    destruct (Pos.compare_cont Eq m m'); reflexivity.
Qed.

Lemma SFleb_not_SFltb (x y : number) : SFleb x y = true → SFltb y x = false.
Proof.
  unfold SFleb, SFltb. rewrite (SFcompare_antisym x y).
  destruct (SFcompare x y) as [[]|]; simpl; congruence.
Qed.

End Numbers.

(** ** The query parameters [get] sends *)

Section RequestParams.

Context (p : process) (this : FDAAPIClient).

Lemma present_idem (ov : option value) : present (present ov) = present ov.
Proof. destruct ov as [v|]; simpl; [|done]. by destruct (is_nullish v) eqn:E; simpl; rewrite ?E. Qed.

Lemma present_Some (ov : option value) (v : value) :
  present ov = Some v ↔ ov = Some v ∧ is_nullish v = false.
Proof.
  destruct ov as [w|]; simpl.
  - destruct (is_nullish w) eqn:E; split.
    + discriminate.
    + intros [Hw Hv]. injection Hw as ->. congruence.
    + intros Hw. injection Hw as ->. done.
    + intros [Hw _]. done.
  - split; [discriminate | intros [? _]; discriminate].
Qed.

Lemma sweep_lookup (o : object) (key k : string) :
  sweep o key !! k = if decide (key = k) then present (o !! k) else o !! k.
Proof.
  unfold sweep, prop. case_decide as Hk.
  - subst k. destruct (o !! key) as [v|] eqn:E; simpl.
    + destruct (is_nullish v); [apply lookup_delete_eq | done].
    + apply lookup_delete_eq.
  - destruct (o !! key) as [v|]; simpl.
    + destruct (is_nullish v); [by apply lookup_delete_ne | done].
    + by apply lookup_delete_ne.
Qed.

Lemma sweep_all_lookup (keys : list string) (o : object) (k : string) :
  fold_left sweep keys o !! k =
    if decide (k ∈ keys) then present (o !! k) else o !! k.
Proof.
  revert o. induction keys as [|key keys IH]; intros o; cbn [fold_left].
  - case_decide as H; [by apply elem_of_nil in H | done].
  - rewrite IH, sweep_lookup.
    destruct (decide (k ∈ key :: keys)) as [Hin|Hin],
             (decide (k ∈ keys)) as [Hk|Hk],
             (decide (key = k)) as [->|Hne]; try done.
    + by rewrite present_idem.
    + exfalso. apply elem_of_cons in Hin as [->|Hin]; [by apply Hne | by apply Hk].
    + exfalso. apply Hin, elem_of_cons. by left.
    + exfalso. apply Hin, elem_of_cons. by right.
    + exfalso. apply Hin, elem_of_cons. by left.
Qed.

(** The clean-up loop, read pointwise. *)
Lemma remove_undefined_lookup (o : object) (k : string) :
  remove_undefined o !! k = present (o !! k).
Proof.
  unfold remove_undefined, Object_keys.
  rewrite sweep_all_lookup. case_decide as H; [done|].
  destruct (o !! k) as [v|] eqn:E; [|done].
  exfalso. apply H. apply list_elem_of_fmap. exists (k, v). split; [done|].
  by apply elem_of_map_to_list.
Qed.

Lemma ensure_limit_lookup (o : object) (k : string) :
  ensure_limit p o !! k =
    if decide (k = "limit") then Some (VNum (limit_sent p (prop o "limit")))
    else o !! k.
Proof.
  unfold ensure_limit, limit_sent.
  destruct (ToBoolean (prop o "limit")); case_decide as H; subst;
    rewrite ?lookup_insert_eq; try done; by rewrite lookup_insert_ne.
Qed.

Lemma add_api_key_lookup (o : object) (k : string) :
  add_api_key p this o !! k =
    if decide (k = "api_key")
    then (if hasAPIKey this then Some (VStr (FDA_API_KEY p)) else o !! k)
    else o !! k.
Proof.
  unfold add_api_key. destruct (hasAPIKey this); case_decide as H; subst;
    rewrite ?lookup_insert_eq; try done; by rewrite lookup_insert_ne.
Qed.

(** The parameters on the wire, read pointwise. *)
Lemma request_params_lookup (params : object) (k : string) :
  request_params p this params !! k =
    if decide (k = "limit") then Some (VNum (limit_sent p (prop params "limit")))
    else if decide (k = "api_key") then
      (if hasAPIKey this then Some (VStr (FDA_API_KEY p)) else present (params !! k))
    else present (params !! k).
Proof.
  unfold request_params. rewrite remove_undefined_lookup, ensure_limit_lookup.
  case_decide as Hl.
  - subst k. simpl. unfold prop. rewrite add_api_key_lookup.
    case_decide; [discriminate | done].
  - rewrite add_api_key_lookup. case_decide; [|done].
    destruct (hasAPIKey this); done.
Qed.

End RequestParams.

(** ** The client on the wire *)

Section Client.

Context (p : process) (this : FDAAPIClient).

(** Every path of the error handler throws a plain [Error], and leaves
    the wire alone. *)
Lemma handleAPIError_throws (error : error_object) :
  ∃ m, ∀ A t, @handleAPIError A this error t = (Throw (Error (new_Error m)), t).
Proof.
  unfold handleAPIError.
  destruct (response error) as [resp|].
  - destruct (status resp =? 400); [eexists; reflexivity|].
    destruct (status resp =? 404); [eexists; reflexivity|].
    destruct (status resp =? 429); [eexists; reflexivity|].
    destruct (status resp =? 500); [eexists; reflexivity|].
    destruct (status resp =? 503); eexists; reflexivity.
  - destruct (request error); eexists; reflexivity.
Qed.

(** One run of [get]: the request goes out, and the way it settles decides
    between the data and the error of the handler. *)
Lemma get_run (endpoint : string) (params : object) (t : list event) :
  get p this endpoint params t =
    match axiosInstance this t endpoint (request_params p this params) with
    | Fulfilled r =>
        (Normal (data r), t ++ [HttpGet endpoint (request_params p this params)])
    | Rejected e =>
        handleAPIError this e (t ++ [HttpGet endpoint (request_params p this params)])
    end.
Proof.
  unfold get, try_catch, axiosInstance_get, mbind, M_bind, bind, http_get.
  destruct (axiosInstance this t endpoint (request_params p this params)) as [r|e].
  - reflexivity.
  - destruct (handleAPIError_throws e) as [m Hm]. by rewrite !Hm.
Qed.

Lemma get_trace (endpoint : string) (params : object) (t : list event) :
  (get p this endpoint params t).2 =
    t ++ [HttpGet endpoint (request_params p this params)].
Proof.
  rewrite get_run.
  destruct (axiosInstance this t endpoint (request_params p this params)) as [r|e].
  - reflexivity.
  - destruct (handleAPIError_throws e) as [m Hm]. by rewrite Hm.
Qed.

End Client.

(** ** The dispatcher *)

Section Dispatcher.

Context (h : Handlers).

Lemma tool_names :
  name <$> tools =
    [ "search_drug_adverse_events"; "search_drug_labels"; "search_drug_ndc";
      "search_drug_recalls"; "search_drugs_fda"; "search_drug_shortages";
      "search_device_510k"; "search_device_classifications";
      "search_device_adverse_events"; "search_device_recalls" ].
Proof. reflexivity. Qed.

(** The [catch] clause always throws, and what it throws is an envelope. *)
Lemma rethrow_run (cause : thrown) (t : list event) :
  rethrow cause t =
    (Throw match cause with
           | McpError _ _ => cause
           | Error err => McpError InternalError (message err)
           | NonError _ => McpError InternalError "Unknown error occurred"
           end, t).
Proof. by destruct cause. Qed.

Lemma callTool_run (request : CallToolRequest) (t : list event) :
  callTool h request t =
    match route h request t with
    | (Normal r, t') => (Normal r, t')
    | (Throw cause, t') => rethrow cause t'
    end.
Proof. reflexivity. Qed.

(** C1. A tool-call request whose tool name is not a registered one is
    answered at once with the envelope error of code [MethodNotFound]
    ("Unknown tool: <name>"): whatever the handlers are, none of them runs,
    and the wire is left as it was. *)
Theorem unknown_tool_is_refused_at_once
    (request : CallToolRequest) (t : list event) :
  params_name request ∉ name <$> tools →
  callTool h request t =
    (Throw (McpError MethodNotFound ("Unknown tool: " +:+ params_name request)), t).
Proof.
  rewrite tool_names. intros Hnew.
  rewrite callTool_run. unfold route.
  repeat match goal with
  | |- context [String.eqb (params_name request) ?s] =>
      destruct (String.eqb_spec (params_name request) s) as [Heq|_];
      [ exfalso; apply Hnew; rewrite Heq; repeat constructor | ]
  end.
  reflexivity.
Qed.

(** A registered tool name reaches its own handler, whose errors pass
    through the [catch] clause. *)
Theorem registered_tools_reach_their_handlers
    (arguments : option object) (t : list event) :
  let call name := callTool h {| params_name := name; params_arguments := arguments |} t in
  NoDup (name <$> tools)
  ∧ call "search_drug_adverse_events" =
      try_catch (handleSearchDrugAdverseEvents h arguments) rethrow t
  ∧ call "search_drug_labels" =
      try_catch (handleSearchDrugLabels h arguments) rethrow t
  ∧ call "search_drug_ndc" =
      try_catch (handleSearchDrugNDC h arguments) rethrow t
  ∧ call "search_drug_recalls" =
      try_catch (handleSearchDrugRecalls h arguments) rethrow t
  ∧ call "search_drugs_fda" =
      try_catch (handleSearchDrugsFDA h arguments) rethrow t
  ∧ call "search_drug_shortages" =
      try_catch (handleSearchDrugShortages h arguments) rethrow t
  ∧ call "search_device_510k" =
      try_catch (handleSearchDevice510K h arguments) rethrow t
  ∧ call "search_device_classifications" =
      try_catch (handleSearchDeviceClassifications h arguments) rethrow t
  ∧ call "search_device_adverse_events" =
      try_catch (handleSearchDeviceAdverseEvents h arguments) rethrow t
  ∧ call "search_device_recalls" =
      try_catch (handleSearchDeviceRecalls h arguments) rethrow t.
Proof.
  intros call. split; [|repeat split].
  rewrite tool_names. apply NoDup_ListNoDup.
  repeat (constructor; [simpl; intuition discriminate|]). constructor.
Qed.

(** C5. Whatever a dispatch throws is an envelope error: an envelope error
    raised inside goes out as it is, an [Error] goes out as an envelope of
    code [InternalError] with the same message, and any other thrown value
    as an envelope of code [InternalError] with a fixed message. *)
Theorem errors_leave_in_the_envelope
    (request : CallToolRequest) (t : list event) :
  (∀ e t', callTool h request t = (Throw e, t') →
     ∃ code msg, e = McpError code msg)
  ∧ (∀ cause t', route h request t = (Throw cause, t') →
       callTool h request t =
         (Throw match cause with
                | McpError _ _ => cause
                | Error err => McpError InternalError (message err)
                | NonError _ => McpError InternalError "Unknown error occurred"
                end, t')).
Proof.
  split.
  - intros e t'. rewrite callTool_run.
    destruct (route h request t) as [[r|cause] t0].
    + discriminate.
    + rewrite rethrow_run. intros [= <- _].
      destruct cause; eauto.
  - intros cause t' Hroute. by rewrite callTool_run, Hroute, rethrow_run.
Qed.

End Dispatcher.

Lemma unknown_tool_is_refused_at_once_witness :
  callTool (Scenario.labels_fail (NonError VNull))
    (Scenario.call "delete_everything" None) [] =
  (Throw (McpError MethodNotFound "Unknown tool: delete_everything"), []).
Proof.
  apply (unknown_tool_is_refused_at_once
           (Scenario.labels_fail (NonError VNull))
           (Scenario.call "delete_everything" None) []).
  rewrite tool_names. simpl.
  rewrite !not_elem_of_cons. repeat split; try discriminate. apply not_elem_of_nil.
Defined.

Lemma errors_leave_in_the_envelope_witness :
  callTool (Scenario.labels_fail (Error (new_Error "boom")))
    (Scenario.call "search_drug_labels" None) [] =
  (Throw (McpError InternalError "boom"), []).
Proof.
  apply (proj2 (errors_leave_in_the_envelope
                  (Scenario.labels_fail (Error (new_Error "boom")))
                  (Scenario.call "search_drug_labels" None) [])
               (Error (new_Error "boom")) []).
  reflexivity.
Defined.

(** ** What goes out with a request *)

Section Outbound.

Context (p : process) (this : FDAAPIClient).

(** C7. A call of [get] puts exactly one request on the wire, the one for
    its endpoint and its cleaned-up parameters, whether the request is
    fulfilled or rejected; so does each search method. *)
Theorem get_sends_exactly_one_request
    (endpoint : string) (params : object) (t : list event) :
  (get p this endpoint params t).2 =
    t ++ [HttpGet endpoint (request_params p this params)]
  ∧ length (get p this endpoint params t).2 = S (length t)
  ∧ (search endpoint p this params t).2 =
      t ++ [HttpGet endpoint (request_params p this (buildSearchParams p params))].
Proof.
  split; [apply get_trace|]. split.
  - rewrite get_trace, length_app. simpl. lia.
  - unfold search. apply get_trace.
Qed.

(** The clean-up loop is the filter that keeps the properties holding a
    value. *)
Lemma remove_undefined_filter (o : object) :
  remove_undefined o = filter (λ kv, is_nullish kv.2 = false) o.
Proof.
  apply map_eq. intros k. rewrite remove_undefined_lookup.
  apply option_eq. intros v.
  rewrite present_Some, map_lookup_filter_Some. done.
Qed.

(** C8. The parameters of the outbound request are those of the request
    object (the caller's parameters with the key and the limit set) whose
    value is neither [undefined] nor [null], with their values: a key is
    sent exactly when it holds a value. *)
Theorem outbound_keys_are_those_with_a_value (params : object) :
  let requestParams := ensure_limit p (add_api_key p this params) in
  request_params p this params =
    filter (λ kv, is_nullish kv.2 = false) requestParams
  ∧ (∀ k, is_Some (request_params p this params !! k) ↔
          is_nullish (prop requestParams k) = false)
  ∧ (∀ k, k ≠ "limit" → k ≠ "api_key" →
          request_params p this params !! k = present (params !! k)).
Proof.
  intros requestParams. split; [apply remove_undefined_filter|]. split.
  - intros k. unfold request_params. fold requestParams.
    rewrite remove_undefined_lookup. unfold prop.
    destruct (requestParams !! k) as [v|]; simpl.
    + destruct (is_nullish v); split; intros H;
        first [done | by destruct H | by eexists].
    + split; intros H; first [done | by destruct H].
  - intros k Hl Hk. rewrite request_params_lookup.
    by rewrite !decide_False.
Qed.

Lemma buildSearchParams_limit (searchParams : object) :
  buildSearchParams p searchParams !! "limit" =
    if ToBoolean (prop searchParams "limit")
    then Some (VNum (limit_sent p (prop searchParams "limit")))
    else None.
Proof.
  unfold buildSearchParams, limit_sent.
  destruct (ToBoolean (prop searchParams "search")),
           (ToBoolean (prop searchParams "count")),
           (ToBoolean (prop searchParams "limit")),
           (ToBoolean (prop searchParams "skip")); reflexivity.
Qed.

(** [buildSearchParams] keeps [search], [count], [limit] and [skip], each
    only when it is truthy, caps the limit, and drops every other key. *)
Theorem buildSearchParams_keeps_truthy_fields (searchParams : object) (k : string) :
  buildSearchParams p searchParams !! k =
    if decide (k = "search" ∨ k = "count" ∨ k = "skip") then
      (if ToBoolean (prop searchParams k) then Some (prop searchParams k) else None)
    else if decide (k = "limit") then
      (if ToBoolean (prop searchParams "limit")
       then Some (VNum (limit_sent p (prop searchParams "limit"))) else None)
    else None.
Proof.
  destruct (decide (k = "limit")) as [->|Hl].
  { rewrite decide_False; [apply buildSearchParams_limit|].
    intros [H|[H|H]]; discriminate. }
  unfold buildSearchParams.
  destruct (decide (k = "search")) as [->|Hs].
  { rewrite decide_True by (by left).
    destruct (ToBoolean (prop searchParams "search")),
             (ToBoolean (prop searchParams "count")),
             (ToBoolean (prop searchParams "limit")),
             (ToBoolean (prop searchParams "skip")); reflexivity. }
  destruct (decide (k = "count")) as [->|Hc].
  { rewrite decide_True by (right; by left).
    destruct (ToBoolean (prop searchParams "search")),
             (ToBoolean (prop searchParams "count")),
             (ToBoolean (prop searchParams "limit")),
             (ToBoolean (prop searchParams "skip")); reflexivity. }
  destruct (decide (k = "skip")) as [->|Hk].
  { rewrite decide_True by (right; by right).
    destruct (ToBoolean (prop searchParams "search")),
             (ToBoolean (prop searchParams "count")),
             (ToBoolean (prop searchParams "limit")),
             (ToBoolean (prop searchParams "skip")); reflexivity. }
  rewrite decide_False by (intros [H|[H|H]]; done).
  destruct (ToBoolean (prop searchParams "search")),
           (ToBoolean (prop searchParams "count")),
           (ToBoolean (prop searchParams "limit")),
           (ToBoolean (prop searchParams "skip"));
    rewrite ?lookup_insert_ne by done; apply lookup_empty.
Qed.

(** C10. When the limit of a request is missing, [null], zero or falsy in
    any other way, the request on the wire carries the default limit, 10;
    zero is not raised to the declared minimum. *)
Theorem falsy_limit_becomes_the_default
    (endpoint : string) (params : object) (t : list event) :
  ToBoolean (prop params "limit") = false →
  (∃ o, (get p this endpoint params t).2 = t ++ [HttpGet endpoint o]
        ∧ o !! "limit" = Some (VNum DEFAULT_LIMIT))
  ∧ (∃ o, (search endpoint p this params t).2 = t ++ [HttpGet endpoint o]
          ∧ o !! "limit" = Some (VNum DEFAULT_LIMIT))
  ∧ DEFAULT_LIMIT = number_of_Z 10.
Proof.
  intros Hfalsy. repeat split.
  - eexists. split; [apply get_trace|].
    rewrite request_params_lookup. simpl. unfold limit_sent. by rewrite Hfalsy.
  - eexists. split; [unfold search; apply get_trace|].
    rewrite request_params_lookup. simpl. unfold limit_sent, prop.
    by rewrite buildSearchParams_limit, Hfalsy.
Qed.

End Outbound.

Lemma falsy_limit_becomes_the_default_witness :
  (∃ o, (get Scenario.bare
           (fdaAPIClient Scenario.bare (Scenario.answers (Fulfilled Scenario.empty_page)))
           "/drug/label.json" {[ "limit" := VNum (S754_zero false) ]} []).2 =
        [] ++ [HttpGet "/drug/label.json" o]
        ∧ o !! "limit" = Some (VNum DEFAULT_LIMIT))
  ∧ (∃ o, (search "/drug/label.json" Scenario.bare
           (fdaAPIClient Scenario.bare (Scenario.answers (Fulfilled Scenario.empty_page)))
           {[ "limit" := VNum (S754_zero false) ]} []).2 =
        [] ++ [HttpGet "/drug/label.json" o]
        ∧ o !! "limit" = Some (VNum DEFAULT_LIMIT))
  ∧ DEFAULT_LIMIT = number_of_Z 10.
Proof.
  apply (falsy_limit_becomes_the_default Scenario.bare
           (fdaAPIClient Scenario.bare (Scenario.answers (Fulfilled Scenario.empty_page)))
           "/drug/label.json" {[ "limit" := VNum (S754_zero false) ]} []).
  reflexivity.
Defined.

(** ** The limit *)

Section Limit.

Context (p : process) (this : FDAAPIClient).

(** Every tool of the catalogue declares its limit as a number between 1
    and 100. *)
Lemma limit_declared (t : tool) :
  t ∈ tools → declared t "limit" = Some (Schema TNumber [] (Some 1) (Some 100)).
Proof.
  unfold tools. rewrite !elem_of_cons, elem_of_nil.
  intros H. repeat (destruct H as [->|H]; [reflexivity|]). done.
Qed.

Lemma number_of_Z_1_bits : number_of_Z 1 = S754_finite false 4503599627370496 (-52).
Proof. vm_compute. reflexivity. Qed.

(** A number from 1 up is truthy. *)
Lemma at_least_1_truthy (x : number) :
  SFleb (number_of_Z 1) x = true → ToBoolean (VNum x) = true.
Proof.
  rewrite number_of_Z_1_bits. by destruct x as [[]|[]| |[] m e].
Qed.

(** The limit sent for a number between 1 and 100 is that number. *)
Lemma limit_sent_in_bounds (x : number) :
  SFleb (number_of_Z 1) x = true →
  SFleb x MAX_LIMIT = true →
  limit_sent p (VNum x) = x.
Proof.
  intros Hlo Hhi. unfold limit_sent.
  rewrite (at_least_1_truthy x Hlo). simpl ToNumber.
  rewrite Math_min_pair by (by rewrite MAX_LIMIT_bits).
  rewrite (SFleb_not_SFltb _ _ Hhi).
  by destruct x.
Qed.

(** C9. A limit that is a number within the bounds its tool declares goes
    out as it came in, and sending the parameters of such a request through
    the client once more changes nothing. *)
Theorem in_bounds_limit_is_kept
    (t : tool) (type : schema_type) (enum : list string) (lo hi : Z)
    (params : object) (x : number) :
  t ∈ tools →
  declared t "limit" = Some (Schema type enum (Some lo) (Some hi)) →
  params !! "limit" = Some (VNum x) →
  SFleb (number_of_Z lo) x = true →
  SFleb x (number_of_Z hi) = true →
  request_params p this params !! "limit" = Some (VNum x)
  ∧ request_params p this (request_params p this params) =
      request_params p this params.
Proof.
  intros Ht Hdecl Hx Hlo Hhi.
  rewrite (limit_declared t Ht) in Hdecl. injection Hdecl as <- <- <- <-.
  assert (Hsent : request_params p this params !! "limit" = Some (VNum x)).
  { rewrite request_params_lookup. simpl. unfold prop. rewrite Hx.
    by rewrite limit_sent_in_bounds. }
  split; [done|].
  apply map_eq. intros k.
  rewrite (request_params_lookup p this (request_params p this params)).
  destruct (decide (k = "limit")) as [->|Hl].
  - unfold prop at 1. rewrite Hsent. by rewrite limit_sent_in_bounds.
  - rewrite !request_params_lookup.
    destruct (decide (k = "limit")); [done|].
    destruct (decide (k = "api_key")), (hasAPIKey this);
      try done; apply present_idem.
Qed.

(** The limit on the wire never exceeds [MAX_LIMIT]: it is a number, and
    unless the caller's limit reads as NaN it is at most 100. *)
Theorem limit_sent_is_capped (params : object) :
  ∃ x, request_params p this params !! "limit" = Some (VNum x)
       ∧ (is_nan x = false → SFleb x MAX_LIMIT = true)
       ∧ (is_nan x = true ↔
            ToBoolean (prop params "limit") = true
            ∧ is_nan (ToNumber (StringToNumber p) (prop params "limit")) = true).
Proof.
  eexists. split; [rewrite request_params_lookup; reflexivity|].
  unfold limit_sent. destruct (ToBoolean (prop params "limit")).
  - rewrite Math_min_pair by (by rewrite MAX_LIMIT_bits).
    destruct (is_nan (ToNumber (StringToNumber p) (prop params "limit"))) eqn:Hnan.
    + split; [done|]. by split.
    + split.
      * intros _. unfold SFltb, SFleb.
        rewrite (SFcompare_antisym (ToNumber (StringToNumber p) (prop params "limit")) MAX_LIMIT).
        destruct (SFcompare (ToNumber (StringToNumber p) (prop params "limit")) MAX_LIMIT)
          as [[]|] eqn:Hc; simpl; try rewrite Hc; try done.
        rewrite MAX_LIMIT_bits in Hc.
        by destruct (ToNumber (StringToNumber p) (prop params "limit"))
          as [[]|[]| |[] m e].
      * destruct (SFltb MAX_LIMIT _); rewrite ?MAX_LIMIT_bits, ?Hnan; simpl;
          (split; [done | intros [_ ?]; done]).
  - split; [by rewrite DEFAULT_LIMIT_bits, MAX_LIMIT_bits|].
    rewrite DEFAULT_LIMIT_bits. split; [done | intros [? _]; done].
Qed.

(** C3, at a negative limit. The catalogue declares the limit of every tool
    as a number from 1 to 100, but a limit of -5 is truthy and below 100:
    it goes out as -5, below the declared minimum. *)
Theorem negative_limit_goes_out (endpoint : string) (t : list event) :
  let params : object := {[ "limit" := VNum (number_of_Z (-5)) ]} in
  (∀ tool, tool ∈ tools →
     declared tool "limit" = Some (Schema TNumber [] (Some 1) (Some 100)))
  ∧ (∃ o, (get p this endpoint params t).2 = t ++ [HttpGet endpoint o]
          ∧ o !! "limit" = Some (VNum (number_of_Z (-5))))
  ∧ (∃ o, (search endpoint p this params t).2 = t ++ [HttpGet endpoint o]
          ∧ o !! "limit" = Some (VNum (number_of_Z (-5))))
  ∧ SFltb (number_of_Z (-5)) (number_of_Z 1) = true.
Proof.
  intros params.
  assert (Hsent : limit_sent p (VNum (number_of_Z (-5))) = number_of_Z (-5)).
  { unfold limit_sent. rewrite Math_min_pair by (by rewrite MAX_LIMIT_bits).
    rewrite MAX_LIMIT_bits. reflexivity. }
  assert (Hprop : prop params "limit" = VNum (number_of_Z (-5))).
  { unfold prop, params. by rewrite lookup_singleton_eq. }
  split; [apply limit_declared|]. repeat split.
  - eexists. split; [apply get_trace|].
    rewrite request_params_lookup, decide_True by done.
    by rewrite Hprop, Hsent.
  - eexists. split; [unfold search; apply get_trace|].
    rewrite request_params_lookup, decide_True by done.
    unfold prop at 1. rewrite buildSearchParams_limit, Hprop.
    change (ToBoolean (VNum (number_of_Z (-5)))) with true. cbv iota.
    by rewrite !Hsent.
Qed.

End Limit.

Lemma in_bounds_limit_is_kept_witness :
  request_params Scenario.bare
    (fdaAPIClient Scenario.bare (Scenario.answers (Fulfilled Scenario.empty_page)))
    {[ "limit" := VNum (number_of_Z 5) ]} !! "limit" = Some (VNum (number_of_Z 5))
  ∧ request_params Scenario.bare
      (fdaAPIClient Scenario.bare (Scenario.answers (Fulfilled Scenario.empty_page)))
      (request_params Scenario.bare
         (fdaAPIClient Scenario.bare (Scenario.answers (Fulfilled Scenario.empty_page)))
         {[ "limit" := VNum (number_of_Z 5) ]}) =
    request_params Scenario.bare
      (fdaAPIClient Scenario.bare (Scenario.answers (Fulfilled Scenario.empty_page)))
      {[ "limit" := VNum (number_of_Z 5) ]}.
Proof.
  apply (in_bounds_limit_is_kept Scenario.bare
           (fdaAPIClient Scenario.bare (Scenario.answers (Fulfilled Scenario.empty_page)))
           search_drug_labels_tool TNumber [] 1 100
           {[ "limit" := VNum (number_of_Z 5) ]} (number_of_Z 5)).
  - unfold tools. apply elem_of_cons. right. apply elem_of_cons. by left.
  - reflexivity.
  - reflexivity.
  - vm_compute. reflexivity.
  - vm_compute. reflexivity.
Defined.

(** ** The API key *)

Section Key.

Context (p : process) (net : network).

Lemma FDA_API_KEY_truthy : ToBoolean (VStr (FDA_API_KEY p)) = true.
Proof.
  unfold FDA_API_KEY, or_else. simpl.
  destruct (env p !! "FDA_API_KEY") as [k|]; [|reflexivity].
  destruct (String.eqb k "") eqn:E; [reflexivity | by rewrite E].
Qed.

(** C4, as the code has it. The key is read from the environment when the
    module is loaded, and a built-in key stands in when the variable is
    unset or empty; the client therefore always has a key, and every
    request on the wire carries it. *)
Theorem a_key_goes_out_with_every_request
    (endpoint : string) (params : object) (t : list event) :
  let this := fdaAPIClient p net in
  hasAPIKey this = true
  ∧ (∃ o, (get p this endpoint params t).2 = t ++ [HttpGet endpoint o]
          ∧ o !! "api_key" = Some (VStr (FDA_API_KEY p)))
  ∧ FDA_API_KEY p ≠ ""
  ∧ (∀ k, env p !! "FDA_API_KEY" = Some k → k ≠ "" → FDA_API_KEY p = k)
  ∧ (env p !! "FDA_API_KEY" = None ∨ env p !! "FDA_API_KEY" = Some "" →
     FDA_API_KEY p = "sNQRRzbOvngzuFVbiajF6AelXY7QncaX3OKN8YQD").
Proof.
  intros this.
  assert (Hhas : hasAPIKey this = true) by apply FDA_API_KEY_truthy.
  split; [done|]. split; [|split; [|split]].
  - eexists. split; [apply get_trace|].
    rewrite request_params_lookup, decide_False, decide_True by done.
    by rewrite Hhas.
  - intros Hempty. pose proof FDA_API_KEY_truthy as H.
    rewrite Hempty in H. discriminate.
  - intros k Hk Hne. unfold FDA_API_KEY, or_else. rewrite Hk.
    by destruct (String.eqb_spec k "").
  - intros [H|H]; unfold FDA_API_KEY, or_else; by rewrite H.
Qed.

End Key.

(** C4, as stated, fails: a process started without [FDA_API_KEY] still
    sends a key with its requests. *)
Lemma no_key_in_the_environment_still_sends_one :
  env Scenario.bare !! "FDA_API_KEY" = None
  ∧ (get Scenario.bare
       (fdaAPIClient Scenario.bare (Scenario.answers (Fulfilled Scenario.empty_page)))
       "/drug/label.json" ∅ []).2 =
    [ HttpGet "/drug/label.json"
        {[ "api_key" := VStr "sNQRRzbOvngzuFVbiajF6AelXY7QncaX3OKN8YQD";
           "limit" := VNum DEFAULT_LIMIT ]} ].
Proof.
  split; [reflexivity|].
  rewrite get_trace. reflexivity.
Qed.

(** ** Upstream failures *)

Section Failures.

Context (p : process) (this : FDAAPIClient).

(** C2, as the code has it. An answer with status 404 makes [get] throw
    the error "No results found for the given search criteria"; a
    fulfilled request returns its data, an empty result set included. *)
Theorem not_found_is_thrown_and_empty_is_returned
    (endpoint : string) (params : object) (t : list event) :
  let sent := request_params p this params in
  (∀ e r, axiosInstance this t endpoint sent = Rejected e →
          response e = Some r → status r = 404 →
          get p this endpoint params t =
            (Throw (Error (new_Error "No results found for the given search criteria")),
             t ++ [HttpGet endpoint sent]))
  ∧ (∀ r, axiosInstance this t endpoint sent = Fulfilled r →
          get p this endpoint params t =
            (Normal (data r), t ++ [HttpGet endpoint sent])).
Proof.
  intros sent. split.
  - intros e r Hnet Hr Hs. rewrite get_run. fold sent. rewrite Hnet.
    unfold handleAPIError. rewrite Hr, Hs. reflexivity.
  - intros r Hnet. rewrite get_run. fold sent. by rewrite Hnet.
Qed.


(** The messages of the error handler that start as the one for a rate
    limit are those for status 429. *)
Lemma rate_limit_message_only_for_429 (e : error_object) (m : string)
    (t t' : list event) :
  @handleAPIError response_data this e t = (Throw (Error (new_Error m)), t') →
  String.prefix "Rate limit exceeded." m = true →
  ∃ r, response e = Some r ∧ status r = 429.
Proof.
  unfold handleAPIError.
  destruct (response e) as [r|].
  - destruct (status r =? 400) eqn:E400; [intros [= <- _]; discriminate|].
    destruct (status r =? 404) eqn:E404; [intros [= <- _]; discriminate|].
    destruct (status r =? 429) eqn:E429.
    { intros _ _. exists r. split; [done|]. by apply Z.eqb_eq. }
    destruct (status r =? 500) eqn:E500; [intros [= <- _]; discriminate|].
    destruct (status r =? 503) eqn:E503; intros [= <- _]; discriminate.
  - destruct (request e); intros [= <- _]; discriminate.
Qed.

(** C6, as the code has it. An answer with status 429 makes [get] throw an
    error whose message starts with "Rate limit exceeded.", which no other
    failure produces; the error holds that message only, so the upstream
    status cannot be read off it. *)
Theorem rate_limit_is_thrown_without_its_status
    (endpoint : string) (params : object) (t : list event)
    (e : error_object) (r : http_response) :
  axiosInstance this t endpoint (request_params p this params) = Rejected e →
  response e = Some r →
  status r = 429 →
  ∃ m, get p this endpoint params t =
         (Throw (Error (new_Error m)),
          t ++ [HttpGet endpoint (request_params p this params)])
       ∧ m = "Rate limit exceeded. " +:+
             (if hasAPIKey this then "API key rate limits"
              else "Consider using an API key for higher limits")
       ∧ String.prefix "Rate limit exceeded." m = true
       ∧ upstream_status (Error (new_Error m)) = None
       ∧ (∀ e' m' t1 t2,
            @handleAPIError response_data this e' t1 =
              (Throw (Error (new_Error m')), t2) →
            String.prefix "Rate limit exceeded." m' = true →
            ∃ r', response e' = Some r' ∧ status r' = 429).
Proof.
  intros Hnet Hr Hs. eexists. split; [|split; [reflexivity|]].
  - rewrite get_run, Hnet. unfold handleAPIError. rewrite Hr, Hs. reflexivity.
  - split; [by destruct (hasAPIKey this)|]. split; [reflexivity|].
    apply rate_limit_message_only_for_429.
Qed.

End Failures.

Lemma not_found_is_thrown_and_empty_is_returned_witness :
  get Scenario.bare
    (fdaAPIClient Scenario.bare
       (Scenario.answers (Rejected (Scenario.failed_with Scenario.no_matches))))
    "/drug/label.json" ∅ [] =
  (Throw (Error (new_Error "No results found for the given search criteria")),
   [] ++ [HttpGet "/drug/label.json"
            (request_params Scenario.bare
               (fdaAPIClient Scenario.bare
                  (Scenario.answers (Rejected (Scenario.failed_with Scenario.no_matches))))
               ∅)]).
Proof.
  apply (proj1 (not_found_is_thrown_and_empty_is_returned Scenario.bare
                  (fdaAPIClient Scenario.bare
                     (Scenario.answers (Rejected (Scenario.failed_with Scenario.no_matches))))
                  "/drug/label.json" ∅ [])
               (Scenario.failed_with Scenario.no_matches) Scenario.no_matches);
    reflexivity.
Defined.

(** C2, as stated, fails: on a 404 the caller of [get] receives an error,
    not an empty result. *)
Lemma not_found_is_not_an_empty_result :
  (get Scenario.bare
     (fdaAPIClient Scenario.bare
        (Scenario.answers (Rejected (Scenario.failed_with Scenario.no_matches))))
     "/drug/label.json" ∅ []).1 =
  Throw (Error (new_Error "No results found for the given search criteria"))
  ∧ succeeded
      (get Scenario.bare
         (fdaAPIClient Scenario.bare
            (Scenario.answers (Rejected (Scenario.failed_with Scenario.no_matches))))
         "/drug/label.json" ∅ []).1 = false.
Proof. rewrite get_run. split; reflexivity. Qed.

Lemma rate_limit_is_thrown_without_its_status_witness :
  ∃ m, get Scenario.bare
         (fdaAPIClient Scenario.bare
            (Scenario.answers (Rejected (Scenario.failed_with Scenario.too_many))))
         "/drug/label.json" ∅ [] =
       (Throw (Error (new_Error m)),
        [] ++ [HttpGet "/drug/label.json"
                 (request_params Scenario.bare
                    (fdaAPIClient Scenario.bare
                       (Scenario.answers (Rejected (Scenario.failed_with Scenario.too_many))))
                    ∅)])
       ∧ m = "Rate limit exceeded. API key rate limits".
Proof.
  destruct (rate_limit_is_thrown_without_its_status Scenario.bare
              (fdaAPIClient Scenario.bare
                 (Scenario.answers (Rejected (Scenario.failed_with Scenario.too_many))))
              "/drug/label.json" ∅ []
              (Scenario.failed_with Scenario.too_many) Scenario.too_many
              eq_refl eq_refl eq_refl) as [m [Hget [Hm _]]].
  exists m. split; [exact Hget | exact Hm].
Defined.

(** C6, as stated, fails: the error thrown on a 429 has no upstream status
    for the caller to inspect, while the rejection it replaces had one. *)
Lemma rate_limit_error_has_no_status :
  upstream_status (Error (Scenario.failed_with Scenario.too_many)) = Some 429
  ∧ ∃ e, (get Scenario.bare
            (fdaAPIClient Scenario.bare
               (Scenario.answers (Rejected (Scenario.failed_with Scenario.too_many))))
            "/drug/label.json" ∅ []).1 = Throw e
         ∧ upstream_status e = None.
Proof.
  split; [reflexivity|]. eexists. split; [rewrite get_run; reflexivity | reflexivity].
Qed.

(** ** The search methods on the wire *)

Section Search.

Context (p : process) (this : FDAAPIClient).

(** [buildSearchParams] on one of the three fields it copies as they are. *)
Lemma buildSearchParams_copied (searchParams : object) (k : string) :
  k = "search" ∨ k = "count" ∨ k = "skip" →
  buildSearchParams p searchParams !! k =
    if ToBoolean (prop searchParams k) then Some (prop searchParams k) else None.
Proof.
  unfold buildSearchParams.
  intros [-> | [-> | ->]];
    destruct (ToBoolean (prop searchParams "search")),
             (ToBoolean (prop searchParams "count")),
             (ToBoolean (prop searchParams "limit")),
             (ToBoolean (prop searchParams "skip")); reflexivity.
Qed.

(** [buildSearchParams] holds nothing under any other key. *)
Lemma buildSearchParams_other (searchParams : object) (k : string) :
  k ≠ "search" → k ≠ "count" → k ≠ "limit" → k ≠ "skip" →
  buildSearchParams p searchParams !! k = None.
Proof.
  intros Hs Hc Hl Hk. unfold buildSearchParams.
  destruct (ToBoolean (prop searchParams "search")),
           (ToBoolean (prop searchParams "count")),
           (ToBoolean (prop searchParams "limit")),
           (ToBoolean (prop searchParams "skip"));
    rewrite ?lookup_insert_ne by done; apply lookup_empty.
Qed.

(** A truthy value is a value. *)
Lemma truthy_not_nullish (v : value) : ToBoolean v = true → is_nullish v = false.
Proof. by destruct v. Qed.

(** Each method of the table is [search] at its path. *)
Lemma search_methods_are_search
    (path : string) (m : process → FDAAPIClient → object → M response_data) :
  (path, m) ∈ search_methods → m = search path.
Proof.
  unfold search_methods. rewrite !elem_of_cons, elem_of_nil.
  intros H.
  repeat (destruct H as [Heq|H]; [injection Heq as -> ->; reflexivity|]). done.
Qed.

(** The request of a search method holds the caller's [search], [count] and
    [skip] exactly when they are truthy and as they came, always a limit,
    and no key besides these and the API key: nothing else the caller
    passes reaches the upstream. No two methods share an endpoint. *)
Theorem search_sends_only_its_own_parameters
    (path : string) (m : process → FDAAPIClient → object → M response_data)
    (searchParams : object) (t : list event) :
  (path, m) ∈ search_methods →
  NoDup (fst <$> search_methods)
  ∧ ∃ o, (m p this searchParams t).2 = t ++ [HttpGet path o]
      ∧ (∀ k, k = "search" ∨ k = "count" ∨ k = "skip" →
              o !! k = if ToBoolean (prop searchParams k)
                       then Some (prop searchParams k) else None)
      ∧ is_Some (o !! "limit")
      ∧ (∀ k, is_Some (o !! k) →
              k = "search" ∨ k = "count" ∨ k = "limit" ∨ k = "skip"
              ∨ k = "api_key").
Proof.
  intros Hm. rewrite (search_methods_are_search path m Hm). split.
  { apply NoDup_ListNoDup.
    repeat (constructor; [simpl; intuition discriminate|]). constructor. }
  eexists. split; [unfold search; apply get_trace|]. split; [|split].
  - intros k Hk. rewrite request_params_lookup.
    rewrite decide_False by (intros ->; destruct Hk as [?|[?|?]]; discriminate).
    rewrite decide_False by (intros ->; destruct Hk as [?|[?|?]]; discriminate).
    rewrite (buildSearchParams_copied _ _ Hk).
    destruct (ToBoolean (prop searchParams k)) eqn:E; [|done].
    simpl. by rewrite (truthy_not_nullish _ E).
  - rewrite request_params_lookup. by rewrite decide_True.
  - intros k Hsome.
    destruct (decide (k = "search")) as [|Hs]; [by left|].
    destruct (decide (k = "count")) as [|Hc]; [right; by left|].
    destruct (decide (k = "limit")) as [|Hl]; [right; right; by left|].
    destruct (decide (k = "skip")) as [|Hk]; [right; right; right; by left|].
    destruct (decide (k = "api_key")) as [|Ha]; [by repeat right|].
    exfalso. rewrite request_params_lookup in Hsome.
    rewrite !decide_False in Hsome by done.
    rewrite buildSearchParams_other in Hsome by done.
    by destruct Hsome.
Qed.



End Search.

Lemma search_sends_only_its_own_parameters_witness :
  NoDup (fst <$> search_methods)
  ∧ ∃ o, (searchDrugRecalls Scenario.bare
            (fdaAPIClient Scenario.bare (Scenario.answers (Fulfilled Scenario.empty_page)))
            {[ "search" := VStr "classification:Class I"; "verbose" := VBool true ]} []).2 =
         [] ++ [HttpGet "/drug/enforcement.json" o]
      ∧ (∀ k, k = "search" ∨ k = "count" ∨ k = "skip" →
              o !! k =
                if ToBoolean (prop {[ "search" := VStr "classification:Class I";
                                      "verbose" := VBool true ]} k)
                then Some (prop {[ "search" := VStr "classification:Class I";
                                   "verbose" := VBool true ]} k)
                else None)
      ∧ is_Some (o !! "limit")
      ∧ (∀ k, is_Some (o !! k) →
              k = "search" ∨ k = "count" ∨ k = "limit" ∨ k = "skip"
              ∨ k = "api_key").
Proof.
  apply (search_sends_only_its_own_parameters Scenario.bare
           (fdaAPIClient Scenario.bare (Scenario.answers (Fulfilled Scenario.empty_page)))
           "/drug/enforcement.json" searchDrugRecalls
           {[ "search" := VStr "classification:Class I"; "verbose" := VBool true ]} []).
  unfold search_methods. rewrite !elem_of_cons. do 3 right. by left.
Defined.


Section SearchStrings.

Context (p : process) (this : FDAAPIClient).

(** A limit given as a non-empty string that reads as NaN or as zero passes
    the first test, is capped to NaN or zero by [buildSearchParams], fails
    the test of [get], and goes out as the default. *)
Theorem search_defaults_an_unreadable_limit
    (endpoint : string) (searchParams : object) (s : string) (t : list event) :
  prop searchParams "limit" = VStr s →
  s ≠ "" →
  ToBoolean (VNum (StringToNumber p s)) = false →
  ∃ o, (search endpoint p this searchParams t).2 = t ++ [HttpGet endpoint o]
       ∧ o !! "limit" = Some (VNum DEFAULT_LIMIT).
Proof.
  intros Hs Hne Hread. eexists. split; [unfold search; apply get_trace|].
  rewrite request_params_lookup, decide_True by done.
  unfold prop at 1. rewrite buildSearchParams_limit, Hs.
  assert (Ht : ToBoolean (VStr s) = true).
  { simpl. by destruct (String.eqb_spec s ""). }
  rewrite Ht. unfold limit_sent at 2. rewrite Ht. simpl ToNumber.
  rewrite Math_min_pair by (by rewrite MAX_LIMIT_bits).
  unfold limit_sent.
  destruct (StringToNumber p s) as [[]|[]| |[] m e]; try done;
    rewrite MAX_LIMIT_bits; reflexivity.
Qed.

End SearchStrings.

Lemma search_defaults_an_unreadable_limit_witness :
  ∃ o, (search "/drug/label.json" Scenario.bare
          (fdaAPIClient Scenario.bare (Scenario.answers (Fulfilled Scenario.empty_page)))
          {[ "limit" := VStr "many" ]} []).2 =
       [] ++ [HttpGet "/drug/label.json" o]
       ∧ o !! "limit" = Some (VNum DEFAULT_LIMIT).
Proof.
  apply (search_defaults_an_unreadable_limit Scenario.bare
           (fdaAPIClient Scenario.bare (Scenario.answers (Fulfilled Scenario.empty_page)))
           "/drug/label.json" {[ "limit" := VStr "many" ]} "many" []).
  - reflexivity.
  - discriminate.
  - reflexivity.
Defined.

(** ** Usage information *)

Section Usage.

Context (p : process) (net : network).

(** Whatever the environment holds, the exported client reports that a key
    is configured, with the rate limits of a keyed client; the advice to set
    [FDA_API_KEY] is never given. *)
Theorem usage_info_is_that_of_a_keyed_client :
  getUsageInfo (fdaAPIClient p net) =
    {| usage_hasAPIKey := true;
       requestsPerMinute := 240;
       requestsPerHour := 120000;
       recommendations := "API key configured - higher rate limits available" |}.
Proof.
  unfold getUsageInfo.
  assert (H : hasAPIKey (fdaAPIClient p net) = true) by apply FDA_API_KEY_truthy.
  by rewrite H.
Qed.

End Usage.

(** ** The catalogue *)

Section Catalogue.

(** Every tool of the catalogue names each parameter once, declares [limit]
    as a number from 1 to 100 and [skip] as a number from 0 with no maximum,
    puts an [enum] (of distinct strings) on string parameters only, and
    bounds on number parameters only, the minimum below the maximum. *)
Theorem catalogue_is_well_formed (t : tool) : t ∈ tools → well_formed t.
Proof.
  unfold tools. rewrite !elem_of_cons, elem_of_nil.
  intros H.
  repeat (destruct H as [->|H];
    [ split; [|split; [reflexivity|split; [reflexivity|]]];
      [ apply NoDup_ListNoDup;
        repeat (constructor; [simpl; intuition discriminate|]); constructor
      | repeat (apply Forall_cons; split;
          [ simpl; first [ exact I | lia
                         | apply NoDup_ListNoDup;
                           repeat (constructor; [simpl; intuition discriminate|]);
                           constructor ] | ]);
        apply Forall_nil_2 ]
    | ]).
  done.
Qed.

End Catalogue.

Lemma catalogue_is_well_formed_witness : well_formed search_device_recalls_tool.
Proof.
  apply (catalogue_is_well_formed search_device_recalls_tool).
  unfold tools. rewrite !elem_of_cons. do 9 right. by left.
Defined.

(** ** Sessions *)

Section Sessions.

Import SseServer.

(** The three answers of [POST /messages]: 400 when the session id is
    missing or empty, 404 when it names no open session (or is not a
    string), and otherwise the request goes to the transport filed under
    that id. *)
Theorem post_messages_by_session_id (q : query_value) (m : sessions) :
  (post_messages q m = Send 400 "Missing sessionId parameter" ↔
     q = QAbsent ∨ q = QString "")
  ∧ (post_messages q m = Send 404 "Session not found" ↔
       q = QOther ∨ ∃ s, q = QString s ∧ s ≠ "" ∧ m !! s = None)
  ∧ (∀ transport, post_messages q m = HandlePostMessage transport ↔
       ∃ s, q = QString s ∧ s ≠ "" ∧ m !! s = Some transport).
Proof.
  unfold post_messages.
  destruct q as [|s|]; simpl.
  - split; [|split].
    + split; [by left | done].
    + split; [done | intros [?|(s & ? & _)]; done].
    + intros tr. split; [done | intros (s & ? & _); done].
  - destruct (String.eqb_spec s "") as [->|Hne]; simpl.
    + split; [|split].
      * split; [by right | done].
      * split; [done | intros [?|(s & [= <-] & ? & _)]; done].
      * intros tr. split; [done | intros (s & [= <-] & ? & _); done].
    + destruct (m !! s) as [tr|] eqn:E; (split; [|split]).
      * split; [done | intros [?|[= ?]]; done].
      * split; [done | intros [?|(s' & [= <-] & _ & ?)]; congruence].
      * intros tr'. split.
        -- intros [= <-]. by exists s.
        -- intros (s' & [= <-] & _ & ?). congruence.
      * split; [done | intros [?|[= ?]]; done].
      * split; [intros _; right; by exists s | done].
      * intros tr'. split; [done | intros (s' & [= <-] & _ & ?); congruence].
  - split; [|split].
    + split; [done | intros [?|?]; done].
    + split; [by left | done].
    + intros tr. split; [done | intros (s & ? & _); done].
Qed.

(** In every registry the process can reach, a transport is filed under its
    own session id and posts to [/messages]. *)
Lemma reachable_filed (m : sessions) :
  reachable m →
  ∀ s transport, m !! s = Some transport →
    sessionId transport = s ∧ endpoint transport = "/messages".
Proof.
  induction 1 as [|res uuid connected m Hm IH|tr m Hm IH]; intros s transport.
  - by rewrite lookup_empty.
  - unfold get_sse. destruct connected; [|apply IH].
    simpl. destruct (decide (uuid = s)) as [->|Hne].
    + rewrite lookup_insert_eq. by intros [= <-].
    + rewrite lookup_insert_ne by done. apply IH.
  - unfold onclose. destruct (decide (sessionId tr = s)) as [->|Hne].
    + by rewrite lookup_delete_eq.
    + rewrite lookup_delete_ne by done. apply IH.
Qed.

(** A request is handed over only for a non-empty string that is a key of
    the registry. *)
Lemma post_messages_handled (q : query_value) (m : sessions)
    (transport : SSEServerTransport) :
  post_messages q m = HandlePostMessage transport →
  ∃ s, q = QString s ∧ s ≠ "" ∧ m !! s = Some transport.
Proof.
  unfold post_messages. destruct q as [|s|]; simpl; try done.
  destruct (String.eqb_spec s "") as [->|Hne]; simpl; [done|].
  destruct (m !! s) as [tr|] eqn:E; [|done].
  intros [= <-]. by exists s.
Qed.

(** However clients have connected and closed, a request handed to a
    transport is one that named the session id of that very transport: no
    message reaches the transport of another session. *)
Theorem messages_reach_only_their_own_session
    (m : sessions) (q : query_value) (transport : SSEServerTransport) :
  reachable m →
  post_messages q m = HandlePostMessage transport →
  q = QString (sessionId transport)
  ∧ sessionId transport ≠ ""
  ∧ endpoint transport = "/messages".
Proof.
  intros Hm Hpost.
  apply post_messages_handled in Hpost as (s & -> & Hne & Hs).
  destruct (reachable_filed m Hm s transport Hs) as [<- He]. done.
Qed.

(** A session lives from its connection to its close: once a client has
    connected, a post naming its session id goes to its transport; once the
    transport has closed, the same post is answered 404; a connection that
    fails leaves the registry as it was; and neither step changes the answer
    to a post that names another session. *)
Theorem session_lives_from_connect_to_close
    (m : sessions) (res : nat) (uuid : string) :
  uuid ≠ "" →
  let transport := new_SSEServerTransport "/messages" res uuid in
  post_messages (QString uuid) (get_sse res uuid true m) = HandlePostMessage transport
  ∧ post_messages (QString uuid) (onclose transport (get_sse res uuid true m)) =
      Send 404 "Session not found"
  ∧ get_sse res uuid false m = m
  ∧ (∀ q, q ≠ QString uuid →
       post_messages q (get_sse res uuid true m) = post_messages q m
       ∧ post_messages q (onclose transport m) = post_messages q m).
Proof.
  intros Hne transport. unfold post_messages, get_sse, onclose. simpl.
  destruct (String.eqb_spec uuid "") as [|_]; [done|]. simpl.
  rewrite lookup_insert_eq, lookup_delete_eq. repeat split.
  - destruct q as [|s|]; try done. simpl.
    assert (uuid ≠ s) by congruence. by rewrite lookup_insert_ne.
  - destruct q as [|s|]; try done. simpl.
    assert (uuid ≠ s) by congruence. by rewrite lookup_delete_ne.
Qed.

End Sessions.

Lemma messages_reach_only_their_own_session_witness :
  SseServer.QString "s-1" =
    SseServer.QString
      (SseServer.sessionId (SseServer.new_SSEServerTransport "/messages" 7 "s-1"))
  ∧ SseServer.sessionId (SseServer.new_SSEServerTransport "/messages" 7 "s-1") ≠ ""
  ∧ SseServer.endpoint (SseServer.new_SSEServerTransport "/messages" 7 "s-1") =
      "/messages".
Proof.
  apply (messages_reach_only_their_own_session
           (SseServer.get_sse 7 "s-1" true
              (SseServer.onclose (SseServer.new_SSEServerTransport "/messages" 3 "s-0")
                 (SseServer.get_sse 3 "s-0" true ∅)))
           (SseServer.QString "s-1")
           (SseServer.new_SSEServerTransport "/messages" 7 "s-1")).
  - repeat constructor.
  - reflexivity.
Defined.

Lemma session_lives_from_connect_to_close_witness :
  SseServer.post_messages (SseServer.QString "s-1") (SseServer.get_sse 7 "s-1" true ∅) =
    SseServer.HandlePostMessage (SseServer.new_SSEServerTransport "/messages" 7 "s-1")
  ∧ SseServer.post_messages (SseServer.QString "s-1")
      (SseServer.onclose (SseServer.new_SSEServerTransport "/messages" 7 "s-1")
         (SseServer.get_sse 7 "s-1" true ∅)) =
      SseServer.Send 404 "Session not found"
  ∧ SseServer.get_sse 7 "s-1" false ∅ = ∅
  ∧ (∀ q, q ≠ SseServer.QString "s-1" →
       SseServer.post_messages q (SseServer.get_sse 7 "s-1" true ∅) =
         SseServer.post_messages q ∅
       ∧ SseServer.post_messages q
           (SseServer.onclose (SseServer.new_SSEServerTransport "/messages" 7 "s-1") ∅) =
         SseServer.post_messages q ∅).
Proof.
  apply (session_lives_from_connect_to_close ∅ 7 "s-1").
  discriminate.
Defined.
